(** * influx2aprs: the poll, transform, dedupe and transmit cycle

    A shallow embedding of [cmd/influx2aprs/main.go]: the body of the
    [LOOP] in [main] (lines 100-177), with the store's answer and the
    relay's answer as inputs and the calls the program makes as a trace
    of events.

    - [float64] is Rocq's primitive binary64 [float]; the Go expressions
      [v*1.8 + 32], [v * 2.23694] and [math.Round(v) / 126] are the same
      IEEE 754 operations, each rounded to nearest-even on its own (what
      the gc compiler emits for amd64).
    - [int] is a 64-bit integer, held in [Z].
    - [time.Time] is an instant and the [*Location] it points to. The
      times of the store's rows are parsed from text and carry no
      monotonic clock reading, so Go's [==] on them compares exactly the
      instant and the Location pointer, while [IsZero] looks at the
      instant alone. *)

From Stdlib Require Import ZArith List String Bool Lia Floats Uint63.
Import ListNotations.

Set Warnings "-inexact-float".
Local Open Scope string_scope.
Local Open Scope list_scope.
Local Open Scope Z_scope.

(** ** time.Time *)

(** A [time.Time] without monotonic reading: [nanos] is the instant, in
    nanoseconds since January 1, year 1, 00:00:00 UTC; [zone] names the
    [*Location] the value points to, 0 being the nil pointer, which
    stands for UTC. Two values parsed with the same numeric offset may
    well point to two Locations. *)
Record Time : Type := mkTime {
  nanos : Z;
  zone : Z
}.

(** A time in UTC. *)
Definition utc (n : Z) : Time := mkTime n 0.

(** [time.Time{}] *)
Definition zeroTime : Time := utc 0.

(** [t.IsZero()]: the instant is January 1, year 1, 00:00:00 UTC, in
    whatever Location. *)
Definition IsZero (t : Time) : bool := nanos t =? 0.

(** [t == u] on the structs: the same instant and the same Location
    pointer. *)
Definition Time_eqb (t u : Time) : bool :=
  (nanos t =? nanos u) && (zone t =? zone u).


(** [t.Before(u)]; the program never calls it, the duplicate check being
    an equality. *)
Definition Before (t u : Time) : Prop := nanos t < nanos u.

(** ** float64 and int *)

Definition minInt64 : Z := - 2 ^ 63.
Definition maxInt64 : Z := 2 ^ 63 - 1.

(** [math.Round(x)]: the nearest integer, halves rounded away from zero;
    zeros, infinities and NaN are returned as they are, and so is every
    [x] without a fractional part. For a finite [x = (-1)^s * m * 2^e]
    with [e < 0] the integer part of [|x|] is [m >> -e] and the fraction
    is at least one half exactly when bit [-e-1] of [m] is set. *)
Definition Round (x : float) : float :=
  match Prim2SF x with
  | S754_finite s m e =>
      if 0 <=? e then x
      else
        let whole := Z.shiftr (Z.pos m) (- e) in
        let n := if Z.testbit (Z.pos m) (- e - 1) then whole + 1 else whole in
        let r := PrimFloat.of_uint63 (Uint63.of_Z n) in
        if s then PrimFloat.opp r else r
  | _ => x
  end.

(** [int(x)] for a [float64] [x]: the fraction is discarded (truncation
    toward zero). Where the truncated value does not fit in 64 bits, or
    [x] is an infinity or NaN, Go leaves the result to the implementation;
    amd64's conversion instruction gives the smallest [int64] there. *)
Definition f64_to_int (x : float) : Z :=
  match Prim2SF x with
  | S754_zero _ => 0
  | S754_finite s m e =>
      let mag := if 0 <=? e then Z.shiftl (Z.pos m) e
                 else Z.shiftr (Z.pos m) (- e) in
      let v := if s then - mag else mag in
      if (minInt64 <=? v) && (v <=? maxInt64) then v else minInt64
  | _ => minInt64
  end.

(** The right-hand sides of the [switch] (lines 135-145). *)
Definition conv_temperature_C (v : float) : Z :=
  f64_to_int (Round (v * 1.8 + 32)%float).

Definition conv_round (v : float) : Z :=
  f64_to_int (Round v).

Definition conv_light_lux (v : float) : Z :=
  f64_to_int (Round v / 126)%float.

Definition conv_wind_m_s (v : float) : Z :=
  f64_to_int (Round (v * 2.23694)%float).



(** ** The data of a cycle *)

(** [aprs.Wx], the observation assembled by a cycle: the fields the
    program writes. *)
Record Wx : Type := mkWx {
  Lat : float;
  Lon : float;
  Type_ : string;
  Timestamp : Time;
  Humidity : Z;
  SolarRad : Z;
  Temp : Z;
  WindDir : Z;
  WindGust : Z;
  WindSpeed : Z
}.

Definition set_Lat (v : float) (w : Wx) : Wx :=
  mkWx v (Lon w) (Type_ w) (Timestamp w) (Humidity w) (SolarRad w) (Temp w)
       (WindDir w) (WindGust w) (WindSpeed w).
Definition set_Lon (v : float) (w : Wx) : Wx :=
  mkWx (Lat w) v (Type_ w) (Timestamp w) (Humidity w) (SolarRad w) (Temp w)
       (WindDir w) (WindGust w) (WindSpeed w).
Definition set_Type (v : string) (w : Wx) : Wx :=
  mkWx (Lat w) (Lon w) v (Timestamp w) (Humidity w) (SolarRad w) (Temp w)
       (WindDir w) (WindGust w) (WindSpeed w).
Definition set_Timestamp (v : Time) (w : Wx) : Wx :=
  mkWx (Lat w) (Lon w) (Type_ w) v (Humidity w) (SolarRad w) (Temp w)
       (WindDir w) (WindGust w) (WindSpeed w).
Definition set_Humidity (v : Z) (w : Wx) : Wx :=
  mkWx (Lat w) (Lon w) (Type_ w) (Timestamp w) v (SolarRad w) (Temp w)
       (WindDir w) (WindGust w) (WindSpeed w).
Definition set_SolarRad (v : Z) (w : Wx) : Wx :=
  mkWx (Lat w) (Lon w) (Type_ w) (Timestamp w) (Humidity w) v (Temp w)
       (WindDir w) (WindGust w) (WindSpeed w).
Definition set_Temp (v : Z) (w : Wx) : Wx :=
  mkWx (Lat w) (Lon w) (Type_ w) (Timestamp w) (Humidity w) (SolarRad w) v
       (WindDir w) (WindGust w) (WindSpeed w).
Definition set_WindDir (v : Z) (w : Wx) : Wx :=
  mkWx (Lat w) (Lon w) (Type_ w) (Timestamp w) (Humidity w) (SolarRad w)
       (Temp w) v (WindGust w) (WindSpeed w).
Definition set_WindGust (v : Z) (w : Wx) : Wx :=
  mkWx (Lat w) (Lon w) (Type_ w) (Timestamp w) (Humidity w) (SolarRad w)
       (Temp w) (WindDir w) v (WindSpeed w).
Definition set_WindSpeed (v : Z) (w : Wx) : Wx :=
  mkWx (Lat w) (Lon w) (Type_ w) (Timestamp w) (Humidity w) (SolarRad w)
       (Temp w) (WindDir w) (WindGust w) v.

(** [var wxData aprs.Wx]: Go's zero value of the struct. *)
Definition Wx_zero_value : Wx :=
  mkWx 0%float 0%float "" zeroTime 0 0 0 0 0 0.

(** What [result.Record().Value()] holds: an [interface{}]. The switch
    asserts [.(float64)] on it, which panics on anything else. *)
Inductive value : Type :=
| VFloat (f : float)
| VOther.

(** [result.Record()]: one row of the answer. *)
Record FluxRecord : Type := mkRecord {
  rField : string;
  rValue : value;
  rTime : Time
}.

(** The SampleTuple of the data model: a row whose value is numeric. *)
Record SampleTuple : Type := mkTuple {
  field : string;
  sample : float;
  instant : Time
}.

Definition record_of (t : SampleTuple) : FluxRecord :=
  mkRecord (field t) (VFloat (sample t)) (instant t).

(** What [queryAPI.Query] answers: an error, or a result that yields rows
    until [result.Next()] is false, with [result.Err()] set or not. *)
Inductive QueryResult : Type :=
| QueryError
| QueryOK (rows : list FluxRecord) (resultErr : bool).

(** The answer of a Reader that keeps to the data model. *)
Inductive TupleResult : Type :=
| TupleError
| TupleOK (tuples : list SampleTuple) (resultErr : bool).

Definition query_of (q : TupleResult) : QueryResult :=
  match q with
  | TupleError => QueryError
  | TupleOK ts e => QueryOK (map record_of ts) e
  end.

(** The part of the configuration the cycle reads through viper. *)
Record Config : Type := mkConfig {
  lat : float;
  lon : float;
  comment : string
}.

(** ** What the program does, as events *)

Inductive level : Type := Debug | Info | Error.

Inductive event : Type :=
| Next (r : FluxRecord)       (* result.Next() was true, r is result.Record() *)
| SetLastTime (t : Time)      (* lastTime = wxData.Timestamp, line 130 *)
| Log (l : level) (msg : string)
| SendIS (w : Wx)             (* f.SendIS(...), the frame's text rendered from w *)
| Exit (code : Z)             (* os.Exit(code) *)
| Tick.                       (* <-ticker.C, the post statement of the loop *)

(** The variables a cycle reads and writes, and the events so far
    (oldest first). *)
Record state : Type := mkState {
  lastTime : Time;
  wxData : Wx;
  trace : list event
}.

Definition emit (e : event) (s : state) : state :=
  mkState (lastTime s) (wxData s) (trace s ++ [e]).

Definition with_wxData (f : Wx -> Wx) (s : state) : state :=
  mkState (lastTime s) (f (wxData s)) (trace s).

Definition with_lastTime (t : Time) (s : state) : state :=
  mkState t (wxData s) (trace s).

(** How the loop over the rows is left. *)
Inductive flow : Type :=
| Fallthrough     (* result.Next() was false: on to line 149 *)
| ContinueLOOP    (* continue LOOP, line 128 *)
| Panic.          (* a failed type assertion *)

(** How an iteration of [LOOP] ends. *)
Inductive control : Type :=
| Continue        (* on to the post statement and the next iteration *)
| Exited (code : Z)
| Panicked.

(** The process after some iterations of [LOOP]. *)
Record process : Type := mkProcess {
  status : control;
  held : Time;               (* lastTime *)
  events : list event
}.

(** The events [tr], then the process [p]. *)
Definition after (tr : list event) (p : process) : process :=
  mkProcess (status p) (held p) (tr ++ events p).

(** ** One iteration of LOOP *)

Section Cycle.

(** The value [Zero] leaves in a numeric field: "no reading". *)
Variable unset : Z.
(** The configuration, fixed for the life of the process. *)
Variable cfg : Config.
(** The [--once] flag. *)
Variable fOnce : bool.

(** Modelled from the spec: [aprs.Wx.Zero] belongs to the library
    github.com/acobaugh/aprs, which is not part of this repository. It
    sets every numeric field to the unset sentinel and touches nothing
    else. *)
Definition Zero (w : Wx) : Wx :=
  set_WindSpeed unset (set_WindGust unset (set_WindDir unset
    (set_Temp unset (set_SolarRad unset (set_Humidity unset w))))).

(** Lines 102-106: a fresh [wxData]; [lastTime] is what the previous
    iterations left. *)
Definition fresh_wxData : Wx :=
  set_Type (comment cfg) (set_Lon (lon cfg) (set_Lat (lat cfg)
    (Zero Wx_zero_value))).

Definition init (lt : Time) : state := mkState lt fresh_wxData [].

(** Lines 124-131: the first row of a cycle stamps the observation; a
    timestamp that repeats [lastTime], or is zero, abandons the cycle. *)
Definition stamp (r : FluxRecord) (s : state) : flow * state :=
  if IsZero (Timestamp (wxData s)) then
    let s1 := with_wxData (set_Timestamp (rTime r)) s in
    if Time_eqb (Timestamp (wxData s1)) (lastTime s1)
       || IsZero (Timestamp (wxData s1))
    then (ContinueLOOP,
          emit (Log Debug "skipping. timestamp=%s lastTime=%s") s1)
    else (Fallthrough,
          emit (SetLastTime (Timestamp (wxData s1)))
               (with_lastTime (Timestamp (wxData s1)) s1))
  else (Fallthrough, s).

(** [result.Record().Value().(float64)], then the assignment [k]. *)
Definition assert_float64 (x : value) (k : float -> Wx) : option Wx :=
  match x with
  | VFloat v => Some (k v)
  | VOther => None
  end.

(** Lines 133-146: the switch on the field name; [None] is the panic of
    a failed type assertion. *)
Definition dispatch (r : FluxRecord) (w : Wx) : option Wx :=
  if (rField r =? "temperature_C")%string then
    assert_float64 (rValue r) (fun v => set_Temp (conv_temperature_C v) w)
  else if (rField r =? "humidity")%string then
    assert_float64 (rValue r) (fun v => set_Humidity (conv_round v) w)
  else if (rField r =? "light_lux")%string then
    assert_float64 (rValue r) (fun v => set_SolarRad (conv_light_lux v) w)
  else if (rField r =? "wind_dir_deg")%string then
    assert_float64 (rValue r) (fun v => set_WindDir (conv_round v) w)
  else if (rField r =? "wind_max_m_s")%string then
    assert_float64 (rValue r) (fun v => set_WindGust (conv_wind_m_s v) w)
  else if (rField r =? "wind_avg_m_s")%string then
    assert_float64 (rValue r) (fun v => set_WindSpeed (conv_wind_m_s v) w)
  else Some w.

(** Lines 123-147: [for result.Next() { ... }]. *)
Fixpoint rows_loop (rows : list FluxRecord) (s : state) : flow * state :=
  match rows with
  | [] => (Fallthrough, s)
  | r :: rest =>
      match stamp r (emit (Next r) s) with
      | (Fallthrough, s1) =>
          match dispatch r (wxData s1) with
          | Some w => rows_loop rest (with_wxData (fun _ => w) s1)
          | None => (Panic, s1)
          end
      | stop => stop
      end
  end.

(** Lines 102-154: the query and the assembly of [wxData]. *)
Definition assemble (q : QueryResult) (lt : Time) : flow * state :=
  match q with
  | QueryOK rows resultErr =>
      match rows_loop rows (init lt) with
      | (Fallthrough, s) =>
          (Fallthrough,
           if resultErr then emit (Log Error "Result error") s else s)
      | stop => stop
      end
  | QueryError => (Fallthrough, emit (Log Error "Query error") (init lt))
  end.

(** Lines 155-176: the hand-over to APRS-IS; [sendOK] tells whether
    [f.SendIS] returns nil. *)
Definition transmit (sendOK : bool) (s : state) : control * state :=
  if negb (IsZero (Timestamp (wxData s))) then
    let s1 := emit (SendIS (wxData s)) (emit (Log Debug "wxData: %#v") s) in
    if sendOK then
      let s2 := emit (Log Info "Sent to APRS-IS: %s") s1 in
      if fOnce then (Exited 0, emit (Exit 0) s2) else (Continue, s2)
    else (Continue, emit (Log Error "APRS-IS error") s1)
  else (Continue, emit (Log Debug "empty wxData") s).

(** The body of [LOOP], lines 102-176. *)
Definition iteration (q : QueryResult) (sendOK : bool) (lt : Time)
  : control * state :=
  match assemble q lt with
  | (Fallthrough, s) => transmit sendOK s
  | (ContinueLOOP, s) => (Continue, s)
  | (Panic, s) => (Panicked, s)
  end.

(** Lines 101-177: [for ; true; <-ticker.C { ... }] over the answers the
    store and the relay give to the first cycles: the first iteration
    starts at once, every later one after a tick. The result is how the
    process stands after them, the [lastTime] it holds and all its
    events. *)
Fixpoint run (inputs : list (QueryResult * bool)) (lt : Time) : process :=
  match inputs with
  | [] => mkProcess Continue lt []
  | (q, sendOK) :: rest =>
      match iteration q sendOK lt with
      | (Continue, s) => after (trace s ++ [Tick]) (run rest (lastTime s))
      | (c, s) => mkProcess c (lastTime s) (trace s)
      end
  end.

End Cycle.

(** ** Reading a trace *)

(** The observations handed to the Transmitter. *)
Definition sent (tr : list event) : list Wx :=
  flat_map (fun e => match e with SendIS w => [w] | _ => [] end) tr.

(** The rows taken from the result. *)
Definition consumed (tr : list event) : list FluxRecord :=
  flat_map (fun e => match e with Next r => [r] | _ => [] end) tr.

(** The messages logged at a level. *)
Definition logged (l : level) (tr : list event) : list string :=
  flat_map (fun e => match e with
                     | Log Debug m => match l with Debug => [m] | _ => [] end
                     | Log Info m => match l with Info => [m] | _ => [] end
                     | Log Error m => match l with Error => [m] | _ => [] end
                     | _ => []
                     end) tr.

(** The exit codes passed to [os.Exit]. *)
Definition exits (tr : list event) : list Z :=
  flat_map (fun e => match e with Exit c => [c] | _ => [] end) tr.

(** The value of the last tuple that bears a field name. *)
Fixpoint last_value (name : string) (ts : list SampleTuple) : option float :=
  match ts with
  | [] => None
  | t :: rest =>
      match last_value name rest with
      | Some v => Some v
      | None => if (field t =? name)%string then Some (sample t) else None
      end
  end.

(** A numeric field after a cycle: the conversion of the last value that
    bears its name, the sentinel when none does. *)
Definition field_of (unset : Z) (conv : float -> Z) (name : string)
  (ts : list SampleTuple) : Z :=
  match last_value name ts with
  | Some v => conv v
  | None => unset
  end.

(** The switch on a tuple of the data model, where the type assertion
    holds. *)
Definition apply_tuple (w : Wx) (t : SampleTuple) : Wx :=
  match dispatch (record_of t) w with
  | Some w' => w'
  | None => w
  end.


(** The ticks the process has waited for. *)
Definition ticks (tr : list event) : nat :=
  List.length (flat_map (fun e => match e with Tick => [tt] | _ => [] end) tr).

(** A stretch of the trace in which nothing is handed to the relay, the
    process does not exit, no transmission is reported and no tick is
    waited for. *)
Definition quiet (tr : list event) : Prop :=
  sent tr = [] /\ exits tr = [] /\ logged Info tr = [] /\ ticks tr = 0%nat.

(** The observation carries a timestamp only once [lastTime] has been set
    to it. *)
Definition committed (s : state) : Prop :=
  IsZero (Timestamp (wxData s)) = false ->
  lastTime s = Timestamp (wxData s) /\
  In (SetLastTime (Timestamp (wxData s))) (trace s).

(** The message of line 169. *)
Definition msg_sent : string := "Sent to APRS-IS: %s".

(** The end-to-end scenario of the specification at instant [t1]. *)
Definition scenario (t1 : Time) : list SampleTuple :=
  [mkTuple "temperature_C" 20 t1; mkTuple "humidity" 55.3 t1;
   mkTuple "wind_avg_m_s" 5 t1].

(** A station to run the examples at. *)
Definition station : Config := mkConfig 40.79 (-77.86) "wx".

(** The names the switch of lines 133-146 has a case for. *)
Definition known_field (name : string) : bool :=
  (name =? "temperature_C")%string || (name =? "humidity")%string
  || (name =? "light_lux")%string || (name =? "wind_dir_deg")%string
  || (name =? "wind_max_m_s")%string || (name =? "wind_avg_m_s")%string.

(** The timestamps of the observations handed to the relay, in order. *)
Definition stamps (tr : list event) : list Time := map Timestamp (sent tr).

(** No two neighbours of a list are equal. *)
Fixpoint adjacent_distinct (l : list Time) : Prop :=
  match l with
  | a :: (b :: _) as rest => a <> b /\ adjacent_distinct rest
  | _ => True
  end.

(** The observation carries the position and the comment of the
    configuration. *)
Definition at_station (cfg : Config) (w : Wx) : Prop :=
  Lat w = lat cfg /\ Lon w = lon cfg /\ Type_ w = comment cfg.

(** Where [lastTime] stands during the loop over the rows of a cycle that
    began at [lt0]: untouched while the observation has no timestamp, and
    equal to the observation's timestamp, which is not [lt0], once it has
    one. *)
Definition tracked (lt0 : Time) (s : state) : Prop :=
  if IsZero (Timestamp (wxData s))
  then lastTime s = lt0
  else lastTime s = Timestamp (wxData s) /\ Timestamp (wxData s) <> lt0.

(** The same answer of the store and the relay, [n] cycles in a row. *)
Definition replay (n : nat) (q : QueryResult) (sendOK : bool)
  : list (QueryResult * bool) :=
  repeat (q, sendOK) n.

(** ** Facts about time.Time *)

Lemma Time_eqb_eq (t u : Time) : Time_eqb t u = true <-> t = u.
Proof.
  destruct t as [a b], u as [c d]. unfold Time_eqb. cbn [nanos zone].
  rewrite andb_true_iff, !Z.eqb_eq. split.
  - intros [-> ->]. reflexivity.
  - intros H. inversion H. split; reflexivity.
Qed.

Lemma Time_eqb_neq (t u : Time) : Time_eqb t u = false <-> t <> u.
Proof.
  rewrite <- Time_eqb_eq. destruct (Time_eqb t u); split; intros H;
    try discriminate; try reflexivity.
  exfalso; apply H; reflexivity.
Qed.

Lemma Time_eqb_refl (t : Time) : Time_eqb t t = true.
Proof. apply Time_eqb_eq. reflexivity. Qed.

Lemma Before_neq (t u : Time) : Before t u \/ Before u t -> t <> u.
Proof. unfold Before. intros H E. subst u. lia. Qed.

(** ** Facts about the trace readers *)

Lemma sent_app (a b : list event) : sent (a ++ b) = sent a ++ sent b.
Proof. apply flat_map_app. Qed.

Lemma consumed_app (a b : list event) :
  consumed (a ++ b) = consumed a ++ consumed b.
Proof. apply flat_map_app. Qed.

Lemma logged_app (l : level) (a b : list event) :
  logged l (a ++ b) = logged l a ++ logged l b.
Proof. apply flat_map_app. Qed.

Lemma exits_app (a b : list event) : exits (a ++ b) = exits a ++ exits b.
Proof. apply flat_map_app. Qed.

Lemma ticks_app (a b : list event) : ticks (a ++ b) = (ticks a + ticks b)%nat.
Proof. unfold ticks. rewrite flat_map_app. apply length_app. Qed.

Lemma quiet_nil : quiet [].
Proof. repeat split. Qed.

Lemma quiet_app (a b : list event) : quiet a -> quiet b -> quiet (a ++ b).
Proof.
  intros (Ha1 & Ha2 & Ha3 & Ha4) (Hb1 & Hb2 & Hb3 & Hb4).
  unfold quiet.
  rewrite sent_app, exits_app, logged_app, ticks_app.
  rewrite Ha1, Ha2, Ha3, Ha4, Hb1, Hb2, Hb3, Hb4.
  repeat split.
Qed.

Lemma quiet_Next (r : FluxRecord) : quiet [Next r].
Proof. repeat split. Qed.

Lemma quiet_SetLastTime (t : Time) : quiet [SetLastTime t].
Proof. repeat split. Qed.

Lemma quiet_Debug (m : string) : quiet [Log Debug m].
Proof. repeat split. Qed.

Lemma quiet_Error (m : string) : quiet [Log Error m].
Proof. repeat split. Qed.

(** ** The switch *)

Lemma dispatch_Timestamp (r : FluxRecord) (w w' : Wx) :
  dispatch r w = Some w' -> Timestamp w' = Timestamp w.
Proof.
  unfold dispatch, assert_float64.
  repeat match goal with
         | |- context [if ?b then _ else _] => destruct b
         end;
    destruct (rValue r); intros H; inversion H; reflexivity.
Qed.

Lemma dispatch_tuple (t : SampleTuple) (w : Wx) :
  dispatch (record_of t) w = Some (apply_tuple w t).
Proof.
  unfold apply_tuple, dispatch, assert_float64; cbn [record_of rField rValue].
  repeat match goal with
         | |- context [if ?b then _ else _] => destruct b
         end; reflexivity.
Qed.

Lemma apply_tuple_Timestamp (t : SampleTuple) (w : Wx) :
  Timestamp (apply_tuple w t) = Timestamp w.
Proof. apply (dispatch_Timestamp (record_of t)), dispatch_tuple. Qed.

Lemma fold_apply_Timestamp (ts : list SampleTuple) (w : Wx) :
  Timestamp (fold_left apply_tuple ts w) = Timestamp w.
Proof.
  revert w; induction ts as [|t ts IH]; intros w; cbn [fold_left].
  - reflexivity.
  - rewrite IH. apply apply_tuple_Timestamp.
Qed.

(** One case of the switch at a time: which fields a tuple writes. *)
Ltac switch_on t :=
  unfold apply_tuple, dispatch, assert_float64;
  cbn [record_of rField rValue];
  repeat match goal with
         | |- context [String.eqb (field t) ?s] =>
             let E := fresh "E" in
             destruct (String.eqb_spec (field t) s) as [E|E];
             [ try rewrite E; cbn [String.eqb Ascii.eqb Bool.eqb] | ]
         end;
  try reflexivity.

Lemma apply_tuple_Temp (t : SampleTuple) (w : Wx) :
  Temp (apply_tuple w t) =
  if (field t =? "temperature_C")%string
  then conv_temperature_C (sample t) else Temp w.
Proof. switch_on t. Qed.

Lemma apply_tuple_Humidity (t : SampleTuple) (w : Wx) :
  Humidity (apply_tuple w t) =
  if (field t =? "humidity")%string then conv_round (sample t) else Humidity w.
Proof. switch_on t. Qed.

Lemma apply_tuple_SolarRad (t : SampleTuple) (w : Wx) :
  SolarRad (apply_tuple w t) =
  if (field t =? "light_lux")%string
  then conv_light_lux (sample t) else SolarRad w.
Proof. switch_on t. Qed.

Lemma apply_tuple_WindDir (t : SampleTuple) (w : Wx) :
  WindDir (apply_tuple w t) =
  if (field t =? "wind_dir_deg")%string
  then conv_round (sample t) else WindDir w.
Proof. switch_on t. Qed.

Lemma apply_tuple_WindGust (t : SampleTuple) (w : Wx) :
  WindGust (apply_tuple w t) =
  if (field t =? "wind_max_m_s")%string
  then conv_wind_m_s (sample t) else WindGust w.
Proof. switch_on t. Qed.

Lemma apply_tuple_WindSpeed (t : SampleTuple) (w : Wx) :
  WindSpeed (apply_tuple w t) =
  if (field t =? "wind_avg_m_s")%string
  then conv_wind_m_s (sample t) else WindSpeed w.
Proof. switch_on t. Qed.

(** The switch leaves the station's position and comment alone. *)
Lemma apply_tuple_station (t : SampleTuple) (w : Wx) :
  Lat (apply_tuple w t) = Lat w /\ Lon (apply_tuple w t) = Lon w /\
  Type_ (apply_tuple w t) = Type_ w.
Proof.
  unfold apply_tuple, dispatch, assert_float64;
    cbn [record_of rField rValue].
  repeat match goal with
         | |- context [if ?b then _ else _] => destruct b
         end; repeat split.
Qed.

(** Over a whole stream the last writer of a field wins. *)
Lemma fold_field (get : Wx -> Z) (conv : float -> Z) (name : string) :
  (forall t w, get (apply_tuple w t) =
               if (field t =? name)%string then conv (sample t) else get w) ->
  forall ts w,
    get (fold_left apply_tuple ts w) =
    match last_value name ts with
    | Some v => conv v
    | None => get w
    end.
Proof.
  intros Hstep ts; induction ts as [|t ts IH]; intros w;
    cbn [fold_left last_value].
  - reflexivity.
  - rewrite IH. destruct (last_value name ts) as [v|].
    + reflexivity.
    + rewrite Hstep. destruct (field t =? name)%string; reflexivity.
Qed.

(** ** The loop over the rows *)

(** Once the observation is stamped, a stream of tuples is folded through
    the switch to its end, whatever the tuples' own instants. *)
Lemma rows_loop_stamped (ts : list SampleTuple) (s : state) :
  IsZero (Timestamp (wxData s)) = false ->
  rows_loop (map record_of ts) s =
  (Fallthrough,
   mkState (lastTime s) (fold_left apply_tuple ts (wxData s))
           (trace s ++ map (fun t => Next (record_of t)) ts)).
Proof.
  revert s; induction ts as [|t ts IH]; intros s Hs; cbn [map rows_loop].
  - cbn [fold_left]. rewrite app_nil_r. destruct s; reflexivity.
  - unfold stamp. cbn [emit wxData]. rewrite Hs.
    rewrite dispatch_tuple.
    rewrite IH by (cbn [with_wxData wxData]; rewrite apply_tuple_Timestamp;
                   exact Hs).
    cbn [with_wxData emit lastTime wxData trace fold_left].
    rewrite <- app_assoc. reflexivity.
Qed.

(** Lines 124-131 at the first row of a cycle. *)
Lemma stamp_accept (r : FluxRecord) (s : state) :
  IsZero (Timestamp (wxData s)) = true ->
  IsZero (rTime r) = false ->
  Time_eqb (rTime r) (lastTime s) = false ->
  stamp r s =
  (Fallthrough,
   mkState (rTime r) (set_Timestamp (rTime r) (wxData s))
           (trace s ++ [SetLastTime (rTime r)])).
Proof.
  intros H0 Hz Hd. unfold stamp. rewrite H0.
  cbn [with_wxData wxData lastTime set_Timestamp Timestamp].
  rewrite Hz, Hd. reflexivity.
Qed.

Lemma stamp_reject (r : FluxRecord) (s : state) :
  IsZero (Timestamp (wxData s)) = true ->
  Time_eqb (rTime r) (lastTime s) = true \/ IsZero (rTime r) = true ->
  stamp r s =
  (ContinueLOOP,
   mkState (lastTime s) (set_Timestamp (rTime r) (wxData s))
           (trace s ++ [Log Debug "skipping. timestamp=%s lastTime=%s"])).
Proof.
  intros H0 H. unfold stamp. rewrite H0.
  cbn [with_wxData wxData lastTime set_Timestamp Timestamp].
  replace (Time_eqb (rTime r) (lastTime s) || IsZero (rTime r)) with true
    by (symmetry; apply orb_true_iff; exact H).
  reflexivity.
Qed.

Lemma committed_emit (e : event) (s : state) :
  committed s -> committed (emit e s).
Proof.
  unfold committed; cbn [emit wxData lastTime trace]; intros H Hz.
  destruct (H Hz) as [H1 H2]. split; [exact H1|].
  apply in_or_app; left; exact H2.
Qed.

(** Lines 124-131 never panic, add nothing but quiet events, and set
    [lastTime] whenever they stamp the observation. *)
Lemma stamp_spec (r : FluxRecord) (s : state) :
  exists tr,
    trace (snd (stamp r s)) = trace s ++ tr /\ quiet tr /\
    fst (stamp r s) <> Panic /\
    (committed s -> fst (stamp r s) = Fallthrough ->
     committed (snd (stamp r s))).
Proof.
  unfold stamp.
  destruct (IsZero (Timestamp (wxData s))) eqn:Hz.
  - cbn [with_wxData wxData lastTime].
    destruct (Time_eqb (set_Timestamp (rTime r) (wxData s)).(Timestamp)
                       (lastTime s)
              || IsZero (set_Timestamp (rTime r) (wxData s)).(Timestamp)).
    + eexists; cbn [snd fst emit trace with_wxData].
      split; [reflexivity|]. split; [apply quiet_Debug|].
      split; discriminate.
    + eexists; cbn [snd fst emit trace with_lastTime with_wxData wxData].
      split; [reflexivity|]. split; [apply quiet_SetLastTime|].
      split; [discriminate|].
      intros _ _ _. cbn [lastTime wxData trace]. split; [reflexivity|].
      apply in_or_app; right; left; reflexivity.
  - exists []. cbn [snd fst]. rewrite app_nil_r.
    split; [reflexivity|]. split; [apply quiet_nil|].
    split; [discriminate|]. intros H _; exact H.
Qed.

(** Lines 123-147 on any rows: only quiet events, and an observation that
    leaves the loop with a timestamp has had it committed. *)
Lemma rows_loop_spec (rows : list FluxRecord) :
  forall s,
  exists tr,
    trace (snd (rows_loop rows s)) = trace s ++ tr /\ quiet tr /\
    (committed s -> fst (rows_loop rows s) = Fallthrough ->
     committed (snd (rows_loop rows s))).
Proof.
  induction rows as [|r rest IH]; intros s; cbn [rows_loop].
  - exists []. cbn [snd fst]. rewrite app_nil_r.
    split; [reflexivity|]. split; [apply quiet_nil|]. intros H _; exact H.
  - destruct (stamp_spec r (emit (Next r) s)) as (tr1 & Ht1 & Hq1 & Hp1 & Hc1).
    destruct (stamp r (emit (Next r) s)) as [f1 s1].
    cbn [fst snd emit trace] in Ht1, Hp1, Hc1.
    assert (Hq : quiet ([Next r] ++ tr1))
      by (apply quiet_app; [apply quiet_Next | exact Hq1]).
    destruct f1.
    + destruct (dispatch r (wxData s1)) as [w|] eqn:Hd.
      * destruct (IH (with_wxData (fun _ => w) s1)) as (tr2 & Ht2 & Hq2 & Hc2).
        exists (([Next r] ++ tr1) ++ tr2).
        split; [|split].
        -- rewrite Ht2. cbn [with_wxData trace]. rewrite Ht1.
           rewrite <- !app_assoc. reflexivity.
        -- apply quiet_app; assumption.
        -- intros Hs Hf. apply Hc2; [|exact Hf].
           assert (Hs1 : committed s1)
             by (apply Hc1; [apply committed_emit; exact Hs | reflexivity]).
           unfold committed in *. cbn [with_wxData wxData lastTime trace].
           rewrite (dispatch_Timestamp _ _ _ Hd). exact Hs1.
      * exists ([Next r] ++ tr1). cbn [snd fst].
        split; [rewrite Ht1, <- app_assoc; reflexivity|].
        split; [exact Hq|]. discriminate.
    + exists ([Next r] ++ tr1). cbn [snd fst].
      split; [rewrite Ht1, <- app_assoc; reflexivity|].
      split; [exact Hq|]. discriminate.
    + exfalso; apply Hp1; reflexivity.
Qed.


(** ** The assembly of an observation *)

Section Assembly.

Variable unset : Z.
Variable cfg : Config.

Lemma committed_init (lt : Time) : committed (init unset cfg lt).
Proof. unfold committed; cbn; discriminate. Qed.

(** Lines 102-154 hand nothing to the relay, and an observation that
    reaches line 155 with a timestamp has had it committed. *)
Lemma assemble_spec (q : QueryResult) (lt : Time) :
  quiet (trace (snd (assemble unset cfg q lt))) /\
  (fst (assemble unset cfg q lt) = Fallthrough ->
   committed (snd (assemble unset cfg q lt))).
Proof.
  unfold assemble. destruct q as [|rows e].
  - cbn [snd fst]. split; [apply quiet_Error|].
    intros _. apply committed_emit, committed_init.
  - destruct (rows_loop_spec rows (init unset cfg lt)) as (tr & Ht & Hq & Hc).
    cbn [init trace app] in Ht.
    destruct (rows_loop rows (init unset cfg lt)) as [f s].
    cbn [fst snd] in Ht, Hc. destruct f; cbn [fst snd].
    + destruct e.
      * split.
        -- cbn [emit trace]. rewrite Ht.
           apply quiet_app; [exact Hq | apply quiet_Error].
        -- intros _. apply committed_emit, Hc;
             [apply committed_init | reflexivity].
      * split; [rewrite Ht; exact Hq|].
        intros _. apply Hc; [apply committed_init | reflexivity].
    + split; [rewrite Ht; exact Hq | discriminate].
    + split; [rewrite Ht; exact Hq | discriminate].
Qed.


(** A stream whose first tuple carries a timestamp that is not zero and
    is not [lastTime] is taken to its end: the first tuple stamps the
    observation and commits, every tuple goes through the switch. *)
Lemma assemble_accepted (t : SampleTuple) (ts : list SampleTuple)
  (e : bool) (lt : Time) :
  IsZero (instant t) = false ->
  Time_eqb (instant t) lt = false ->
  assemble unset cfg (query_of (TupleOK (t :: ts) e)) lt =
  (Fallthrough,
   let s := mkState (instant t)
              (fold_left apply_tuple (t :: ts)
                 (set_Timestamp (instant t) (fresh_wxData unset cfg)))
              (Next (record_of t) :: SetLastTime (instant t)
                 :: map (fun u => Next (record_of u)) ts) in
   if e then emit (Log Error "Result error") s else s).
Proof.
  intros Hz Hd. unfold assemble; cbn [query_of map rows_loop].
  rewrite stamp_accept by (try reflexivity; assumption).
  rewrite dispatch_tuple.
  rewrite rows_loop_stamped
    by (cbn [with_wxData wxData]; rewrite apply_tuple_Timestamp; exact Hz).
  reflexivity.
Qed.

End Assembly.

(** ** The cycle *)


(** C6. A cycle whose result yields no row leaves the observation as
    [Zero] made it, every numeric field unset and the timestamp zero;
    nothing is sent, [lastTime] is unchanged and the loop goes on. With no
    error on the result the only event is a debug message; with one, the
    error is logged and the rest is the same. *)
Theorem empty_result_is_suppressed
  (unset : Z) (cfg : Config) (fOnce sendOK : bool) (lt : Time) :
  iteration unset cfg fOnce (QueryOK [] false) sendOK lt =
    (Continue,
     mkState lt
       (mkWx (lat cfg) (lon cfg) (comment cfg) zeroTime
             unset unset unset unset unset unset)
       [Log Debug "empty wxData"]) /\
  logged Error (trace (snd (iteration unset cfg fOnce
                              (QueryOK [] false) sendOK lt))) = [] /\
  forall resultErr,
    fst (iteration unset cfg fOnce (QueryOK [] resultErr) sendOK lt)
      = Continue /\
    wxData (snd (iteration unset cfg fOnce (QueryOK [] resultErr) sendOK lt))
      = mkWx (lat cfg) (lon cfg) (comment cfg) zeroTime
             unset unset unset unset unset unset /\
    sent (trace (snd (iteration unset cfg fOnce
                        (QueryOK [] resultErr) sendOK lt))) = [] /\
    lastTime (snd (iteration unset cfg fOnce
                     (QueryOK [] resultErr) sendOK lt)) = lt.
Proof.
  split; [reflexivity|]. split; [reflexivity|].
  intros []; repeat split.
Qed.

(** C7. When the query returns an error the iteration logs it and does
    nothing else: no row is read, nothing is sent, [lastTime] is
    unchanged; the loop waits for the tick and runs the next cycle with
    the same [lastTime]. *)
Theorem query_error_is_logged_and_skipped
  (unset : Z) (cfg : Config) (fOnce sendOK : bool) (lt : Time) :
  iteration unset cfg fOnce QueryError sendOK lt =
    (Continue,
     mkState lt (fresh_wxData unset cfg)
       [Log Error "Query error"; Log Debug "empty wxData"]) /\
  sent (trace (snd (iteration unset cfg fOnce QueryError sendOK lt))) = [] /\
  consumed (trace (snd (iteration unset cfg fOnce QueryError sendOK lt)))
    = [] /\
  forall rest,
    run unset cfg fOnce ((QueryError, sendOK) :: rest) lt =
    after [Log Error "Query error"; Log Debug "empty wxData"; Tick]
          (run unset cfg fOnce rest lt).
Proof.
  assert (E : iteration unset cfg fOnce QueryError sendOK lt =
              (Continue,
               mkState lt (fresh_wxData unset cfg)
                 [Log Error "Query error"; Log Debug "empty wxData"])).
  { unfold iteration, assemble, transmit.
    cbn [emit init wxData lastTime trace].
    change (IsZero (Timestamp (fresh_wxData unset cfg))) with true.
    reflexivity. }
  split; [exact E|]. rewrite E. cbn [snd trace].
  split; [reflexivity|]. split; [reflexivity|].
  intros rest. cbn [run]. rewrite E. reflexivity.
Qed.

(** ** Rounding a float to an integer

    [int(math.Round(x))] against the value of [x], through the
    specification of the primitive floats: [Prim2SF x] is the sign,
    mantissa and exponent of [x]. *)













(** ** The conversions *)




(** ** Accepted cycles *)

Lemma sent_Nexts (ts : list SampleTuple) :
  sent (map (fun u => Next (record_of u)) ts) = [].
Proof. induction ts as [|t ts IH]; [reflexivity | exact IH]. Qed.

Lemma consumed_Nexts (ts : list SampleTuple) :
  consumed (map (fun u => Next (record_of u)) ts) = map record_of ts.
Proof.
  induction ts as [|t ts IH]; [reflexivity|].
  cbn [map]. unfold consumed in *. cbn [flat_map app]. f_equal. exact IH.
Qed.

(** Lines 155-176 on an observation that carries a timestamp. *)
Lemma transmit_stamped (fOnce sendOK : bool) (s : state) :
  IsZero (Timestamp (wxData s)) = false ->
  transmit fOnce sendOK s =
  (if sendOK && fOnce then Exited 0 else Continue,
   mkState (lastTime s) (wxData s)
     (trace s ++ [Log Debug "wxData: %#v"; SendIS (wxData s)] ++
      (if sendOK
       then Log Info msg_sent :: (if fOnce then [Exit 0] else [])
       else [Log Error "APRS-IS error"]))).
Proof.
  intros Hz. unfold transmit. rewrite Hz. cbn [negb].
  destruct sendOK, fOnce; unfold emit; cbn [andb lastTime wxData trace];
    rewrite <- !app_assoc; reflexivity.
Qed.

Section Accepted.

Variable unset : Z.
Variable cfg : Config.
Variable fOnce : bool.

(** The observation a stream of tuples is folded into. *)
Lemma iteration_accepted (t : SampleTuple) (ts : list SampleTuple)
  (e sendOK : bool) (lt : Time) :
  IsZero (instant t) = false ->
  Time_eqb (instant t) lt = false ->
  let w := fold_left apply_tuple (t :: ts)
             (set_Timestamp (instant t) (fresh_wxData unset cfg)) in
  iteration unset cfg fOnce (query_of (TupleOK (t :: ts) e)) sendOK lt =
  (if sendOK && fOnce then Exited 0 else Continue,
   mkState (instant t) w
     ((Next (record_of t) :: SetLastTime (instant t)
         :: map (fun u => Next (record_of u)) ts) ++
      (if e then [Log Error "Result error"] else []) ++
      [Log Debug "wxData: %#v"; SendIS w] ++
      (if sendOK
       then Log Info msg_sent :: (if fOnce then [Exit 0] else [])
       else [Log Error "APRS-IS error"]))).
Proof.
  intros Hz Hd w. unfold iteration.
  rewrite (assemble_accepted unset cfg t ts e lt Hz Hd).
  fold w. cbv zeta.
  assert (Hw : IsZero (Timestamp w) = false).
  { unfold w. rewrite fold_apply_Timestamp. exact Hz. }
  destruct e.
  - rewrite transmit_stamped by exact Hw.
    unfold emit; cbn [lastTime wxData trace].
    rewrite <- !app_assoc. reflexivity.
  - rewrite transmit_stamped by exact Hw.
    cbn [lastTime wxData trace app]. reflexivity.
Qed.

End Accepted.

Section AcceptedFacts.

Variable unset : Z.
Variable cfg : Config.
Variable fOnce : bool.

(** What an accepted cycle leaves behind, read off its trace. *)
Lemma iteration_accepted_facts (t : SampleTuple) (ts : list SampleTuple)
  (e sendOK : bool) (lt : Time) :
  IsZero (instant t) = false ->
  instant t <> lt ->
  let w := fold_left apply_tuple (t :: ts)
             (set_Timestamp (instant t) (fresh_wxData unset cfg)) in
  let r := iteration unset cfg fOnce (query_of (TupleOK (t :: ts) e))
             sendOK lt in
  fst r = (if sendOK && fOnce then Exited 0 else Continue) /\
  lastTime (snd r) = instant t /\
  wxData (snd r) = w /\
  sent (trace (snd r)) = [w] /\
  In (SetLastTime (instant t)) (trace (snd r)) /\
  consumed (trace (snd r)) = map record_of (t :: ts).
Proof.
  intros Hz Hne w r.
  assert (Hd : Time_eqb (instant t) lt = false) by (apply Time_eqb_neq; exact Hne).
  unfold r. rewrite (iteration_accepted unset cfg fOnce t ts e sendOK lt Hz Hd).
  fold w. cbn [fst snd lastTime wxData trace].
  split; [reflexivity|]. split; [reflexivity|]. split; [reflexivity|].
  split; [|split].
  - rewrite !sent_app. cbn [sent flat_map app]. fold (sent (map (fun u => Next (record_of u)) ts)).
    rewrite sent_Nexts. destruct e, sendOK, fOnce; reflexivity.
  - right; left; reflexivity.
  - rewrite !consumed_app. cbn [consumed flat_map app].
    fold (consumed (map (fun u => Next (record_of u)) ts)).
    rewrite consumed_Nexts. destruct e, sendOK, fOnce; cbn [map]; rewrite ?app_nil_r; reflexivity.
Qed.

End AcceptedFacts.

(** C2. The scenario temperature 20.0, humidity 55.3, average wind 5.0,
    all at an instant [t1] that is not zero and not [lastTime]: the cycle
    commits [lastTime = t1] and hands the relay one observation, with
    Temp 68, Humidity 55, WindSpeed 11 and every other numeric field at
    the unset sentinel. *)
Theorem scenario_end_to_end
  (unset : Z) (cfg : Config) (fOnce sendOK : bool) (lt t1 : Time) :
  IsZero t1 = false ->
  t1 <> lt ->
  let r := iteration unset cfg fOnce
             (query_of (TupleOK [mkTuple "temperature_C" 20 t1;
                                 mkTuple "humidity" 55.3 t1;
                                 mkTuple "wind_avg_m_s" 5 t1] false))
             sendOK lt in
  lastTime (snd r) = t1 /\
  In (SetLastTime t1) (trace (snd r)) /\
  sent (trace (snd r)) =
    [{| Lat := lat cfg; Lon := lon cfg; Type_ := comment cfg;
        Timestamp := t1;
        Humidity := 55; SolarRad := unset; Temp := 68;
        WindDir := unset; WindGust := unset; WindSpeed := 11 |}].
Proof.
  intros Hz Hne r.
  destruct (iteration_accepted_facts unset cfg fOnce
              (mkTuple "temperature_C" 20 t1)
              [mkTuple "humidity" 55.3 t1; mkTuple "wind_avg_m_s" 5 t1]
              false sendOK lt Hz Hne) as (_ & H1 & _ & H3 & H4 & _).
  fold r in H1, H3, H4.
  split; [exact H1|]. split; [exact H4|].
  rewrite H3. vm_compute. reflexivity.
Qed.

(** C9. The duplicate check is an equality: a first tuple whose timestamp
    is not zero and differs from [lastTime], be it older or newer, makes
    the cycle run to its end; the observation is handed to the relay and
    [lastTime] becomes that timestamp. *)
Theorem distinct_timestamp_is_accepted
  (unset : Z) (cfg : Config) (fOnce sendOK : bool) (t : SampleTuple)
  (ts : list SampleTuple) (resultErr : bool) (lt : Time) :
  IsZero (instant t) = false ->
  Before (instant t) lt \/ Before lt (instant t) ->
  let r := iteration unset cfg fOnce
             (query_of (TupleOK (t :: ts) resultErr)) sendOK lt in
  fst r = (if sendOK && fOnce then Exited 0 else Continue) /\
  sent (trace (snd r)) = [wxData (snd r)] /\
  Timestamp (wxData (snd r)) = instant t /\
  lastTime (snd r) = instant t /\
  consumed (trace (snd r)) = map record_of (t :: ts).
Proof.
  intros Hz Hne r.
  assert (Hne' : instant t <> lt) by (apply Before_neq; exact Hne).
  destruct (iteration_accepted_facts unset cfg fOnce t ts resultErr sendOK lt
              Hz Hne') as (H0 & H1 & H2 & H3 & _ & H5).
  fold r in H0, H1, H2, H3, H5.
  split; [exact H0|]. rewrite H2. split; [exact H3|].
  split; [rewrite fold_apply_Timestamp; reflexivity|].
  split; [exact H1 | exact H5].
Qed.

(** C10. In an accepted cycle every numeric field of the observation is
    the conversion of the value of the last tuple that bears the field's
    name, and the sentinel when no tuple does; the tuples' own instants
    play no part, only the first one's stamps the observation. *)
Theorem last_tuple_of_a_field_wins
  (unset : Z) (cfg : Config) (fOnce sendOK : bool) (t : SampleTuple)
  (ts : list SampleTuple) (resultErr : bool) (lt : Time) :
  IsZero (instant t) = false ->
  instant t <> lt ->
  let r := iteration unset cfg fOnce
             (query_of (TupleOK (t :: ts) resultErr)) sendOK lt in
  let w := wxData (snd r) in
  sent (trace (snd r)) = [w] /\
  Timestamp w = instant t /\
  Temp w = field_of unset conv_temperature_C "temperature_C" (t :: ts) /\
  Humidity w = field_of unset conv_round "humidity" (t :: ts) /\
  SolarRad w = field_of unset conv_light_lux "light_lux" (t :: ts) /\
  WindDir w = field_of unset conv_round "wind_dir_deg" (t :: ts) /\
  WindGust w = field_of unset conv_wind_m_s "wind_max_m_s" (t :: ts) /\
  WindSpeed w = field_of unset conv_wind_m_s "wind_avg_m_s" (t :: ts).
Proof.
  intros Hz Hne r w.
  destruct (iteration_accepted_facts unset cfg fOnce t ts resultErr sendOK lt
              Hz Hne) as (_ & _ & H2 & H3 & _).
  fold r in H2, H3. fold w in H2. unfold w at 1. rewrite H3, <- H2.
  split; [reflexivity|]. rewrite H2.
  split; [apply fold_apply_Timestamp|].
  unfold field_of.
  rewrite (fold_field Temp _ _ apply_tuple_Temp).
  rewrite (fold_field Humidity _ _ apply_tuple_Humidity).
  rewrite (fold_field SolarRad _ _ apply_tuple_SolarRad).
  rewrite (fold_field WindDir _ _ apply_tuple_WindDir).
  rewrite (fold_field WindGust _ _ apply_tuple_WindGust).
  rewrite (fold_field WindSpeed _ _ apply_tuple_WindSpeed).
  repeat split.
Qed.

(** ** Commit and transmission *)

(** C3. When the assembly reaches line 155 with an observation whose
    timestamp is not zero, [lastTime] already holds that timestamp: the
    assignment of line 130 is in the trace and no transmission is. The
    transmission follows, and when it fails the iteration ends with
    [lastTime] still at the new timestamp, which the next cycle starts
    from. *)
Theorem commit_precedes_send_and_survives_failure
  (unset : Z) (cfg : Config) (fOnce : bool) (q : QueryResult) (lt : Time)
  (s : state) :
  assemble unset cfg q lt = (Fallthrough, s) ->
  IsZero (Timestamp (wxData s)) = false ->
  lastTime s = Timestamp (wxData s) /\
  In (SetLastTime (Timestamp (wxData s))) (trace s) /\
  sent (trace s) = [] /\
  (forall sendOK,
     lastTime (snd (iteration unset cfg fOnce q sendOK lt))
       = Timestamp (wxData s) /\
     sent (trace (snd (iteration unset cfg fOnce q sendOK lt)))
       = [wxData s]) /\
  iteration unset cfg fOnce q false lt =
    (Continue,
     mkState (Timestamp (wxData s)) (wxData s)
       (trace s ++ [Log Debug "wxData: %#v"; SendIS (wxData s);
                    Log Error "APRS-IS error"])) /\
  forall rest,
    run unset cfg fOnce ((q, false) :: rest) lt =
    after (trace s ++ [Log Debug "wxData: %#v"; SendIS (wxData s);
                       Log Error "APRS-IS error"; Tick])
          (run unset cfg fOnce rest (Timestamp (wxData s))).
Proof.
  intros Ha Hz.
  destruct (assemble_spec unset cfg q lt) as [(Hs & _) Hc].
  rewrite Ha in Hs, Hc. cbn [fst snd] in Hs, Hc.
  destruct (Hc eq_refl Hz) as [Hl Hin].
  assert (Hit : forall sendOK,
             iteration unset cfg fOnce q sendOK lt = transmit fOnce sendOK s)
    by (intros sendOK; unfold iteration; rewrite Ha; reflexivity).
  assert (Hfail : iteration unset cfg fOnce q false lt =
                  (Continue,
                   mkState (Timestamp (wxData s)) (wxData s)
                     (trace s ++ [Log Debug "wxData: %#v"; SendIS (wxData s);
                                  Log Error "APRS-IS error"]))).
  { rewrite Hit, transmit_stamped by exact Hz.
    cbn [andb app]. rewrite Hl. reflexivity. }
  split; [exact Hl|]. split; [exact Hin|]. split; [exact Hs|].
  split; [|split].
  - intros sendOK. rewrite Hit, transmit_stamped by exact Hz.
    cbn [snd lastTime trace]. split; [exact Hl|].
    rewrite !sent_app, Hs. destruct sendOK, fOnce; reflexivity.
  - exact Hfail.
  - intros rest. cbn [run]. rewrite Hfail. cbn [lastTime trace].
    unfold after. rewrite <- !app_assoc. reflexivity.
Qed.

(** ** Run once, or loop *)



Section Scheduler.

Variable unset : Z.
Variable cfg : Config.

Lemma run_cons_Continue (fOnce : bool) (q : QueryResult) (sendOK : bool)
  (rest : list (QueryResult * bool)) (lt : Time) (s : state) :
  iteration unset cfg fOnce q sendOK lt = (Continue, s) ->
  run unset cfg fOnce ((q, sendOK) :: rest) lt =
  after (trace s ++ [Tick]) (run unset cfg fOnce rest (lastTime s)).
Proof. intros H. cbn [run]. rewrite H. reflexivity. Qed.




End Scheduler.


Section SchedulerRaw.

Variable unset : Z.
Variable cfg : Config.





End SchedulerRaw.


(** ** The theorems at concrete cycles *)



(** The scenario at instant 7 when [lastTime] is at 3. *)
Lemma scenario_witness :
  lastTime (snd (iteration (-1) station false
                   (query_of (TupleOK (scenario (utc 7)) false))
                   true (utc 3))) = utc 7.
Proof.
  apply (scenario_end_to_end (-1) station false true (utc 3) (utc 7));
    [reflexivity | discriminate].
Defined.

(** A failed transmission of the scenario: [lastTime] stays at 7. *)
Lemma commit_survives_failure_witness :
  lastTime (snd (iteration (-1) station false
                   (query_of (TupleOK (scenario (utc 7)) false))
                   false (utc 3))) = utc 7.
Proof.
  apply (commit_precedes_send_and_survives_failure (-1) station false
           (query_of (TupleOK (scenario (utc 7)) false)) (utc 3)
           (snd (assemble (-1) station
                   (query_of (TupleOK (scenario (utc 7)) false)) (utc 3))));
    vm_compute; reflexivity.
Defined.

(** A reading older than [lastTime] is accepted: the scenario at instant
    2 when [lastTime] is at 9. *)
Lemma older_timestamp_witness :
  Before (utc 2) (utc 9) /\
  lastTime (snd (iteration (-1) station false
                   (query_of (TupleOK (scenario (utc 2)) false))
                   true (utc 9))) = utc 2.
Proof.
  split; [reflexivity|].
  apply (distinct_timestamp_is_accepted (-1) station false true
           (mkTuple "temperature_C" 20 (utc 2))
           [mkTuple "humidity" 55.3 (utc 2); mkTuple "wind_avg_m_s" 5 (utc 2)]
           false (utc 9));
    [reflexivity | left; reflexivity].
Defined.

(** Two temperatures at different instants: the later row wins. *)
Lemma last_tuple_witness :
  Temp (wxData (snd (iteration (-1) station false
                       (query_of (TupleOK
                          [mkTuple "temperature_C" 20 (utc 7);
                           mkTuple "temperature_C" 100 (utc 5);
                           mkTuple "humidity" 55.3 (utc 1)] false))
                       true (utc 3)))) = 212.
Proof.
  apply (last_tuple_of_a_field_wins (-1) station false true
           (mkTuple "temperature_C" 20 (utc 7))
           [mkTuple "temperature_C" 100 (utc 5);
            mkTuple "humidity" 55.3 (utc 1)]
           false (utc 3));
    [reflexivity | discriminate].
Defined.




(** ** The switch, row by row *)

Ltac case_name f :=
  repeat match goal with
         | |- context [String.eqb f ?s] =>
             destruct (String.eqb_spec f s);
             [ subst f; cbn [String.eqb Ascii.eqb Bool.eqb orb] | ]
         end.

(** X1. The type assertion of the switch fails, and the program panics,
    exactly on a row that bears one of the six names of the switch with a
    value that is not a float64. A row of any other name is skipped
    whatever its value holds. *)
Theorem dispatch_panics_only_on_known_non_float (r : FluxRecord) (w : Wx) :
  (dispatch r w = None <->
   known_field (rField r) = true /\ rValue r = VOther) /\
  (known_field (rField r) = false -> dispatch r w = Some w).
Proof.
  destruct r as [f v t]. unfold dispatch, known_field, assert_float64.
  cbn [rField rValue].
  case_name f; cbn [orb];
    try (destruct v;
         (split;
          [ split; [ intros H; try discriminate H; split; reflexivity
                   | intros [_ H]; try discriminate H; reflexivity ]
          | intros H; discriminate H ])).
  split; [split; [intros H; discriminate H | intros [H _]; discriminate H]|].
  reflexivity.
Qed.

(** X2. Rows of different field names can be taken in either order, and a
    row taken twice counts once: among the rows of a cycle only the order
    of those that bear the same name matters to the observation. *)
Theorem apply_tuple_commutes (w : Wx) (t u : SampleTuple) :
  apply_tuple (apply_tuple w t) t = apply_tuple w t /\
  (field t <> field u ->
   apply_tuple (apply_tuple w t) u = apply_tuple (apply_tuple w u) t).
Proof.
  destruct t as [ft vt it], u as [fu vu iu].
  unfold apply_tuple, dispatch, assert_float64.
  cbn [record_of rField rValue field sample].
  split.
  - case_name ft; reflexivity.
  - intros Hne. case_name ft; case_name fu;
      try reflexivity; exfalso; apply Hne; reflexivity.
Qed.

(** ** Where lastTime stands *)

Lemma tracked_emit (lt0 : Time) (e : event) (s : state) :
  tracked lt0 s -> tracked lt0 (emit e s).
Proof. intros H; exact H. Qed.

Lemma stamp_tracked (lt0 : Time) (r : FluxRecord) (s : state) :
  tracked lt0 s ->
  match fst (stamp r s) with
  | Fallthrough => tracked lt0 (snd (stamp r s))
  | ContinueLOOP => lastTime (snd (stamp r s)) = lt0
  | Panic => False
  end.
Proof.
  unfold tracked at 1, stamp.
  destruct (IsZero (Timestamp (wxData s))) eqn:Hz0; intros H.
  - cbn [with_wxData wxData lastTime set_Timestamp Timestamp].
    destruct (Time_eqb (rTime r) (lastTime s)) eqn:He;
      [cbn [orb fst snd]; exact H|].
    destruct (IsZero (rTime r)) eqn:Hz; cbn [orb fst snd]; [exact H|].
    unfold tracked, emit, with_lastTime, with_wxData.
    cbn [wxData lastTime set_Timestamp Timestamp]. rewrite Hz.
    split; [reflexivity|]. apply Time_eqb_neq in He. rewrite <- H. exact He.
  - cbn [fst snd]. unfold tracked. rewrite Hz0. exact H.
Qed.

Lemma rows_loop_tracked (lt0 : Time) (rows : list FluxRecord) :
  forall s,
  tracked lt0 s ->
  match fst (rows_loop rows s) with
  | Fallthrough => tracked lt0 (snd (rows_loop rows s))
  | ContinueLOOP => lastTime (snd (rows_loop rows s)) = lt0
  | Panic => True
  end.
Proof.
  induction rows as [|r rest IH]; intros s Hs; cbn [rows_loop].
  - exact Hs.
  - pose proof (stamp_tracked lt0 r (emit (Next r) s)
                  (tracked_emit lt0 (Next r) s Hs)) as H1.
    destruct (stamp r (emit (Next r) s)) as [f1 s1]. cbn [fst snd] in H1.
    destruct f1; [| exact H1 | exact I].
    destruct (dispatch r (wxData s1)) as [w|] eqn:Hd; [|exact I].
    apply IH. unfold tracked in *. cbn [with_wxData wxData lastTime].
    rewrite (dispatch_Timestamp _ _ _ Hd). exact H1.
Qed.

(** [lastTime] is only ever assigned a timestamp that is not zero. *)
Lemma rows_loop_lastTime (rows : list FluxRecord) :
  forall s,
  lastTime (snd (rows_loop rows s)) = lastTime s \/
  IsZero (lastTime (snd (rows_loop rows s))) = false.
Proof.
  induction rows as [|r rest IH]; intros s; cbn [rows_loop].
  - left; reflexivity.
  - assert (H1 : lastTime (snd (stamp r (emit (Next r) s))) = lastTime s \/
                 IsZero (lastTime (snd (stamp r (emit (Next r) s)))) = false).
    { unfold stamp.
      destruct (IsZero (Timestamp (wxData (emit (Next r) s))));
        [|left; reflexivity].
      cbn [with_wxData wxData lastTime set_Timestamp Timestamp emit].
      destruct (Time_eqb (rTime r) (lastTime s)); [left; reflexivity|].
      destruct (IsZero (rTime r)) eqn:Hz; [left; reflexivity|].
      right. exact Hz. }
    destruct (stamp r (emit (Next r) s)) as [f1 s1]. cbn [snd] in H1.
    destruct f1; cbn [snd]; try exact H1.
    destruct (dispatch r (wxData s1)) as [w|]; cbn [snd]; [|exact H1].
    destruct (IH (with_wxData (fun _ => w) s1)) as [H2|H2].
    + rewrite H2. exact H1.
    + right; exact H2.
Qed.

Lemma dispatch_station (r : FluxRecord) (w w' : Wx) :
  dispatch r w = Some w' ->
  Lat w' = Lat w /\ Lon w' = Lon w /\ Type_ w' = Type_ w.
Proof.
  unfold dispatch, assert_float64.
  repeat match goal with
         | |- context [if ?b then _ else _] => destruct b
         end;
    destruct (rValue r); intros H; inversion H; repeat split.
Qed.

Lemma rows_loop_station (cfg : Config) (rows : list FluxRecord) :
  forall s,
  at_station cfg (wxData s) ->
  at_station cfg (wxData (snd (rows_loop rows s))).
Proof.
  induction rows as [|r rest IH]; intros s Hs; cbn [rows_loop].
  - exact Hs.
  - assert (H1 : at_station cfg (wxData (snd (stamp r (emit (Next r) s))))).
    { unfold stamp.
      destruct (IsZero (Timestamp (wxData (emit (Next r) s)))); [|exact Hs].
      destruct (Time_eqb _ _ || IsZero _); exact Hs. }
    destruct (stamp r (emit (Next r) s)) as [f1 s1]. cbn [snd] in H1.
    destruct f1; cbn [snd]; try exact H1.
    destruct (dispatch r (wxData s1)) as [w|] eqn:Hd; cbn [snd]; [|exact H1].
    apply IH. cbn [with_wxData wxData].
    destruct (dispatch_station _ _ _ Hd) as (E1 & E2 & E3).
    unfold at_station in *. rewrite E1, E2, E3. exact H1.
Qed.

Lemma last_cons (a d : Time) (l : list Time) : last (a :: l) d = last l a.
Proof.
  revert a d; induction l as [|b l IH]; intros a d; [reflexivity|].
  change (last (a :: b :: l) d) with (last (b :: l) d).
  rewrite (IH b d), (IH b a). reflexivity.
Qed.

Lemma stamps_app (a b : list event) : stamps (a ++ b) = stamps a ++ stamps b.
Proof. unfold stamps. rewrite sent_app. apply map_app. Qed.

Lemma stamps_tick (tr ev : list event) :
  stamps ((tr ++ [Tick]) ++ ev) = stamps tr ++ stamps ev.
Proof. rewrite !stamps_app. cbn. rewrite app_nil_r. reflexivity. Qed.

Section Iterations.

Variable unset : Z.
Variable cfg : Config.
Variable fOnce : bool.

Lemma tracked_init (lt : Time) : tracked lt (init unset cfg lt).
Proof.
  unfold tracked.
  change (IsZero (Timestamp (wxData (init unset cfg lt)))) with true.
  reflexivity.
Qed.

(** The two ways an iteration can go: nothing is sent, and unless the
    program panics [lastTime] is what it was; or one observation is sent,
    stamped with the new [lastTime], which is not zero and not the old
    one. *)
Lemma iteration_cases (q : QueryResult) (sendOK : bool) (lt : Time) :
  let r := iteration unset cfg fOnce q sendOK lt in
  (sent (trace (snd r)) = [] /\
   (fst r = Panicked \/ (fst r = Continue /\ lastTime (snd r) = lt))) \/
  (sent (trace (snd r)) = [wxData (snd r)] /\
   lastTime (snd r) = Timestamp (wxData (snd r)) /\
   IsZero (lastTime (snd r)) = false /\
   lastTime (snd r) <> lt /\
   fst r = (if sendOK && fOnce then Exited 0 else Continue)).
Proof.
  intros r; unfold r; clear r.
  destruct (assemble_spec unset cfg q lt) as [(Hs & _) _].
  assert (Ht : match fst (assemble unset cfg q lt) with
               | Fallthrough => tracked lt (snd (assemble unset cfg q lt))
               | ContinueLOOP => lastTime (snd (assemble unset cfg q lt)) = lt
               | Panic => True
               end).
  { unfold assemble. destruct q as [|rows e].
    - cbn [fst snd]. apply tracked_emit, tracked_init.
    - pose proof (rows_loop_tracked lt rows (init unset cfg lt)
                    (tracked_init lt)) as H.
      destruct (rows_loop rows (init unset cfg lt)) as [f s].
      cbn [fst snd] in H. destruct f; cbn [fst snd]; try exact H.
      destruct e; [apply tracked_emit|]; exact H. }
  unfold iteration.
  destruct (assemble unset cfg q lt) as [f s]. cbn [fst snd] in Hs, Ht.
  destruct f; cbn [fst snd].
  - unfold tracked in Ht.
    destruct (IsZero (Timestamp (wxData s))) eqn:Hz.
    + left. unfold transmit. rewrite Hz. cbn [negb fst snd].
      unfold emit; cbn [trace lastTime]. rewrite sent_app, Hs.
      split; [reflexivity|]. right. split; [reflexivity | exact Ht].
    + right. destruct Ht as [Hl Hne].
      rewrite transmit_stamped by exact Hz. cbn [fst snd trace lastTime wxData].
      rewrite !sent_app, Hs.
      split; [destruct sendOK, fOnce; reflexivity|].
      split; [exact Hl|]. rewrite Hl.
      split; [exact Hz|]. split; [exact Hne | reflexivity].
  - left. split; [exact Hs|]. right. split; [reflexivity | exact Ht].
  - left. split; [exact Hs|]. left. reflexivity.
Qed.

(** Whatever an iteration does to [lastTime], it does not make it zero. *)
Lemma iteration_lastTime (q : QueryResult) (sendOK : bool) (lt : Time) :
  lastTime (snd (iteration unset cfg fOnce q sendOK lt)) = lt \/
  IsZero (lastTime (snd (iteration unset cfg fOnce q sendOK lt))) = false.
Proof.
  assert (Ha : lastTime (snd (assemble unset cfg q lt)) = lt \/
               IsZero (lastTime (snd (assemble unset cfg q lt))) = false).
  { unfold assemble. destruct q as [|rows e]; [left; reflexivity|].
    pose proof (rows_loop_lastTime rows (init unset cfg lt)) as H.
    destruct (rows_loop rows (init unset cfg lt)) as [f s]. cbn [snd] in H.
    destruct f; cbn [snd]; try exact H. destruct e; exact H. }
  unfold iteration. destruct (assemble unset cfg q lt) as [f s].
  cbn [snd] in Ha. destruct f; cbn [snd]; try exact Ha.
  unfold transmit.
  destruct (negb (IsZero (Timestamp (wxData s)))); [|exact Ha].
  destruct sendOK; [destruct fOnce|]; exact Ha.
Qed.

(** The observation of an iteration is at the configured station. *)
Lemma iteration_station (q : QueryResult) (sendOK : bool) (lt : Time) :
  at_station cfg (wxData (snd (iteration unset cfg fOnce q sendOK lt))).
Proof.
  assert (Ha : at_station cfg (wxData (snd (assemble unset cfg q lt)))).
  { unfold assemble. destruct q as [|rows e]; [repeat split|].
    pose proof (rows_loop_station cfg rows (init unset cfg lt)) as H.
    assert (H0 : at_station cfg (wxData (init unset cfg lt)))
      by (repeat split).
    specialize (H H0).
    destruct (rows_loop rows (init unset cfg lt)) as [f s]. cbn [snd] in H.
    destruct f; cbn [snd]; try exact H. destruct e; exact H. }
  unfold iteration. destruct (assemble unset cfg q lt) as [f s].
  cbn [snd] in Ha. destruct f; cbn [snd]; try exact Ha.
  unfold transmit.
  destruct (negb (IsZero (Timestamp (wxData s)))); [|exact Ha].
  destruct sendOK; [destruct fOnce|]; exact Ha.
Qed.

End Iterations.

(** ** Invariants of the loop *)

(** X3. Over any number of cycles, whatever the store and the relay
    answer: every observation handed to the relay carries a timestamp
    whose instant is not zero and which is not [==] to the timestamp of
    the one handed over before it (to the initial [lastTime] for the
    first); a cycle hands over at most one; and unless the program has
    panicked, [lastTime] is the timestamp of the last one handed over.
    Two timestamps of the same instant in different Locations are not
    [==]: such readings do follow one another. *)
Theorem run_never_sends_a_timestamp_twice_in_a_row
  (unset : Z) (cfg : Config) (fOnce : bool)
  (inputs : list (QueryResult * bool)) (lt : Time) :
  adjacent_distinct (lt :: stamps (events (run unset cfg fOnce inputs lt))) /\
  Forall (fun t => IsZero t = false)
         (stamps (events (run unset cfg fOnce inputs lt))) /\
  (List.length (stamps (events (run unset cfg fOnce inputs lt)))
   <= List.length inputs)%nat /\
  (status (run unset cfg fOnce inputs lt) <> Panicked ->
   held (run unset cfg fOnce inputs lt)
   = last (stamps (events (run unset cfg fOnce inputs lt))) lt).
Proof.
  revert lt; induction inputs as [|[q sendOK] rest IH]; intros lt.
  - cbn. repeat split; auto.
  - pose proof (iteration_cases unset cfg fOnce q sendOK lt) as H.
    cbv zeta in H. cbn [run].
    destruct (iteration unset cfg fOnce q sendOK lt) as [c s].
    cbn [fst snd] in H.
    destruct H as [(Hs & [Hc | (Hc & Hl)]) | (Hs & Hl & Hz & Hne & Hc)].
    + subst c. cbn [status held events]. unfold stamps. rewrite Hs.
      cbn [map adjacent_distinct List.length].
      repeat split; auto using Nat.le_0_l. intros H; exfalso; apply H; reflexivity.
    + subst c. rewrite Hl. destruct (IH lt) as (I1 & I2 & I3 & I4).
      cbn [after status held events].
      rewrite stamps_tick. unfold stamps at 1 3 5 7. rewrite Hs.
      cbn [map app].
      fold (stamps (events (run unset cfg fOnce rest lt))).
      repeat split; auto. cbn [List.length]. lia.
    + assert (Hst : stamps (trace s) = [lastTime s])
        by (unfold stamps; rewrite Hs, Hl; reflexivity).
      destruct (IH (lastTime s)) as (I1 & I2 & I3 & I4).
      destruct (sendOK && fOnce); subst c.
      * cbn [status held events]. rewrite Hst.
        cbn [adjacent_distinct List.length last].
        repeat split; auto. lia.
      * cbn [after status held events].
        rewrite stamps_tick, Hst. cbn [app].
        split; [|split; [|split]].
        -- cbn [adjacent_distinct]. split; [auto | exact I1].
        -- constructor; [exact Hz | exact I2].
        -- cbn [List.length]. lia.
        -- intros Hp. rewrite last_cons. apply I4; exact Hp.
Qed.

(** X4. [lastTime] is never reset: after any number of cycles it is
    either what the process started with or an instant that is not
    zero. *)
Theorem lastTime_is_never_reset
  (unset : Z) (cfg : Config) (fOnce : bool)
  (inputs : list (QueryResult * bool)) (lt : Time) :
  held (run unset cfg fOnce inputs lt) = lt \/
  IsZero (held (run unset cfg fOnce inputs lt)) = false.
Proof.
  revert lt; induction inputs as [|[q sendOK] rest IH]; intros lt.
  - left; reflexivity.
  - pose proof (iteration_lastTime unset cfg fOnce q sendOK lt) as H.
    cbn [run].
    destruct (iteration unset cfg fOnce q sendOK lt) as [c s]. cbn [snd] in H.
    destruct c; cbn [after held]; try exact H.
    destruct (IH (lastTime s)) as [I|I]; [|right; exact I].
    rewrite I. exact H.
Qed.

(** X5. Every observation handed to the relay, in any cycle, carries the
    latitude, longitude and comment of the configuration: no row of the
    store can change them. *)
Theorem every_report_is_at_the_station
  (unset : Z) (cfg : Config) (fOnce : bool)
  (inputs : list (QueryResult * bool)) (lt : Time) :
  Forall (at_station cfg) (sent (events (run unset cfg fOnce inputs lt))).
Proof.
  revert lt; induction inputs as [|[q sendOK] rest IH]; intros lt.
  - constructor.
  - pose proof (iteration_cases unset cfg fOnce q sendOK lt) as H.
    pose proof (iteration_station unset cfg fOnce q sendOK lt) as Hst.
    cbv zeta in H. cbn [run].
    destruct (iteration unset cfg fOnce q sendOK lt) as [c s].
    cbn [fst snd] in H, Hst.
    assert (Hs : Forall (at_station cfg) (sent (trace s))).
    { destruct H as [(Hs & _) | (Hs & _)]; rewrite Hs;
        [constructor | constructor; [exact Hst | constructor]]. }
    destruct c; cbn [after events]; try exact Hs.
    rewrite !sent_app. apply Forall_app. split; [|apply IH].
    apply Forall_app. split; [exact Hs | constructor].
Qed.

(** ** Rows the switch has no use for *)

Lemma dispatch_unknown (r : FluxRecord) (w : Wx) :
  known_field (rField r) = false -> dispatch r w = Some w.
Proof.
  destruct r as [f v t]. unfold dispatch, known_field. cbn [rField rValue].
  case_name f; cbn [orb]; try discriminate. reflexivity.
Qed.

Lemma dispatch_known_other (name : string) (t : Time) (w : Wx) :
  known_field name = true -> dispatch (mkRecord name VOther t) w = None.
Proof.
  unfold dispatch, known_field. cbn [rField rValue].
  case_name name; cbn [orb]; try reflexivity. discriminate.
Qed.

Lemma fold_apply_unknown (ts : list SampleTuple) (w : Wx) :
  Forall (fun u => known_field (field u) = false) ts ->
  fold_left apply_tuple ts w = w.
Proof.
  intros H; revert w; induction H as [|u ts Hu _ IH]; intros w;
    cbn [fold_left]; [reflexivity|].
  rewrite IH. unfold apply_tuple.
  rewrite (dispatch_unknown (record_of u) w Hu). reflexivity.
Qed.

Lemma stamp_stamped (r : FluxRecord) (s : state) :
  IsZero (Timestamp (wxData s)) = false -> stamp r s = (Fallthrough, s).
Proof. intros H. unfold stamp. rewrite H. reflexivity. Qed.

(** The loop over tuples first, then over any rows, from a stamped
    observation. *)
Lemma rows_loop_stamped_app (ts : list SampleTuple) (rows : list FluxRecord) :
  forall s,
  IsZero (Timestamp (wxData s)) = false ->
  rows_loop (map record_of ts ++ rows) s =
  rows_loop rows
    (mkState (lastTime s) (fold_left apply_tuple ts (wxData s))
             (trace s ++ map (fun t => Next (record_of t)) ts)).
Proof.
  induction ts as [|t ts IH]; intros s Hs; cbn [map app].
  - cbn [fold_left]. rewrite app_nil_r. destruct s; reflexivity.
  - cbn [rows_loop]. unfold stamp. cbn [emit wxData]. rewrite Hs.
    rewrite dispatch_tuple.
    rewrite IH by (cbn [with_wxData wxData]; rewrite apply_tuple_Timestamp;
                   exact Hs).
    cbn [with_wxData emit lastTime wxData trace fold_left].
    rewrite <- app_assoc. reflexivity.
Qed.

(** X6. A row that bears one of the six names with a value that is not a
    float64, met after the cycle has been accepted, ends the process in a
    panic: the rows up to it have been read, [lastTime] has been set,
    nothing has been handed to the relay, and no later cycle runs. *)
Theorem non_float_row_panics_the_process
  (unset : Z) (cfg : Config) (fOnce : bool) (t : SampleTuple)
  (ts : list SampleTuple) (name : string) (bt : Time)
  (rest : list FluxRecord) (resultErr sendOK : bool)
  (more : list (QueryResult * bool)) (lt : Time) :
  IsZero (instant t) = false ->
  instant t <> lt ->
  known_field name = true ->
  let q := QueryOK (map record_of (t :: ts)
                      ++ mkRecord name VOther bt :: rest) resultErr in
  let r := iteration unset cfg fOnce q sendOK lt in
  fst r = Panicked /\
  sent (trace (snd r)) = [] /\
  lastTime (snd r) = instant t /\
  consumed (trace (snd r))
    = map record_of (t :: ts) ++ [mkRecord name VOther bt] /\
  run unset cfg fOnce ((q, sendOK) :: more) lt
    = mkProcess Panicked (instant t) (trace (snd r)).
Proof.
  intros Hz Hne Hk q r.
  assert (Hd : Time_eqb (instant t) lt = false) by (apply Time_eqb_neq; exact Hne).
  assert (E : r = (Panicked,
                   mkState (instant t)
                     (fold_left apply_tuple (t :: ts)
                        (set_Timestamp (instant t) (fresh_wxData unset cfg)))
                     ((Next (record_of t) :: SetLastTime (instant t)
                         :: map (fun u => Next (record_of u)) ts)
                      ++ [Next (mkRecord name VOther bt)]))).
  { unfold r, q, iteration, assemble. cbn [map app rows_loop].
    rewrite stamp_accept by (try reflexivity; assumption).
    rewrite dispatch_tuple.
    rewrite rows_loop_stamped_app
      by (cbn [with_wxData wxData]; rewrite apply_tuple_Timestamp; exact Hz).
    cbn [rows_loop].
    rewrite stamp_stamped
      by (cbn [emit with_wxData wxData];
          rewrite fold_apply_Timestamp, apply_tuple_Timestamp; exact Hz).
    cbn [emit wxData]. rewrite (dispatch_known_other name bt _ Hk).
    cbn [init emit with_wxData lastTime wxData trace app fold_left rTime
         record_of].
    reflexivity. }
  assert (Hrun : run unset cfg fOnce ((q, sendOK) :: more) lt
                 = mkProcess Panicked (instant t) (trace (snd r))).
  { cbn [run]. fold r. rewrite E. reflexivity. }
  rewrite Hrun. rewrite E. cbn [fst snd lastTime trace].
  split; [reflexivity|]. split; [|split; [reflexivity|split; [|reflexivity]]].
  - rewrite sent_app. cbn [sent flat_map app].
    fold (sent (map (fun u => Next (record_of u)) ts)).
    rewrite sent_Nexts. reflexivity.
  - rewrite consumed_app. cbn [consumed flat_map app map].
    fold (consumed (map (fun u => Next (record_of u)) ts)).
    rewrite consumed_Nexts. reflexivity.
Qed.

(** X9. An accepted cycle none of whose tuples bears a name of the switch
    still hands an observation to the relay, stamped and with every
    numeric field unset. *)
Theorem unknown_fields_send_a_blank_report
  (unset : Z) (cfg : Config) (fOnce sendOK : bool) (t : SampleTuple)
  (ts : list SampleTuple) (resultErr : bool) (lt : Time) :
  IsZero (instant t) = false ->
  instant t <> lt ->
  Forall (fun u => known_field (field u) = false) (t :: ts) ->
  sent (trace (snd (iteration unset cfg fOnce
                      (query_of (TupleOK (t :: ts) resultErr)) sendOK lt)))
  = [{| Lat := lat cfg; Lon := lon cfg; Type_ := comment cfg;
        Timestamp := instant t;
        Humidity := unset; SolarRad := unset; Temp := unset;
        WindDir := unset; WindGust := unset; WindSpeed := unset |}].
Proof.
  intros Hz Hne Hu.
  destruct (iteration_accepted_facts unset cfg fOnce t ts resultErr sendOK lt
              Hz Hne) as (_ & _ & _ & H3 & _).
  rewrite H3. rewrite (fold_apply_unknown _ _ Hu). reflexivity.
Qed.

(** ** The same reading, polled again *)

Section Replay.

Variable unset : Z.
Variable cfg : Config.
Variable fOnce : bool.

Lemma iteration_stale (r : FluxRecord) (rest : list FluxRecord)
  (e sendOK : bool) (lt : Time) :
  Time_eqb (rTime r) lt = true \/ IsZero (rTime r) = true ->
  iteration unset cfg fOnce (QueryOK (r :: rest) e) sendOK lt =
  (Continue,
   mkState lt (set_Timestamp (rTime r) (fresh_wxData unset cfg))
     [Next r; Log Debug "skipping. timestamp=%s lastTime=%s"]).
Proof.
  intros H. unfold iteration, assemble; cbn [rows_loop].
  rewrite stamp_reject by (try reflexivity; exact H). reflexivity.
Qed.

(** As long as the store answers with a first row that repeats
    [lastTime], cycle after cycle, nothing happens but the wait. *)
Lemma replay_is_suppressed (r : FluxRecord) (rest : list FluxRecord)
  (e sendOK : bool) (lt : Time) (n : nat) :
  Time_eqb (rTime r) lt = true \/ IsZero (rTime r) = true ->
  let p := run unset cfg fOnce (replay n (QueryOK (r :: rest) e) sendOK) lt in
  status p = Continue /\ held p = lt /\ sent (events p) = [] /\
  exits (events p) = [] /\ ticks (events p) = n.
Proof.
  intros H. induction n as [|n IH]; cbn [replay repeat].
  - repeat split.
  - cbv zeta in *. fold (replay n (QueryOK (r :: rest) e) sendOK).
    rewrite (run_cons_Continue unset cfg fOnce _ _ _ _ _
               (iteration_stale r rest e sendOK lt H)).
    cbn [lastTime trace after status held events].
    destruct IH as (I1 & I2 & I3 & I4 & I5).
    rewrite !sent_app, !exits_app, !ticks_app, I3, I4, I5.
    repeat split; assumption.
Qed.

End Replay.

(** X7. A transmission that fails is not tried again: when the store
    goes on answering with results whose first row carries a timestamp
    [==] to the one just committed (the same instant and the same
    Location, as with the UTC times of an InfluxDB), the cycles after the
    failure are abandoned at that row, so the reading is handed to the
    relay once, [lastTime] stays at its timestamp and the process, with or
    without [--once], keeps looping. *)
Theorem failed_send_is_not_retried
  (unset : Z) (cfg : Config) (fOnce : bool) (t t' : SampleTuple)
  (ts ts' : list SampleTuple) (resultErr resultErr' sendOK : bool)
  (lt : Time) (n : nat) :
  IsZero (instant t) = false ->
  instant t <> lt ->
  instant t' = instant t ->
  let q := query_of (TupleOK (t :: ts) resultErr) in
  let q' := query_of (TupleOK (t' :: ts') resultErr') in
  let p := run unset cfg fOnce ((q, false) :: replay n q' sendOK) lt in
  status p = Continue /\
  List.length (sent (events p)) = 1%nat /\
  held p = instant t /\
  exits (events p) = [] /\
  ticks (events p) = S n.
Proof.
  intros Hz Hne Hsame q q' p.
  assert (Hd : Time_eqb (instant t) lt = false) by (apply Time_eqb_neq; exact Hne).
  pose proof (iteration_accepted unset cfg fOnce t ts resultErr false lt Hz Hd)
    as Hi.
  cbv zeta in Hi. cbn [andb] in Hi. fold q in Hi.
  unfold p. rewrite (run_cons_Continue unset cfg fOnce _ _ _ _ _ Hi).
  cbn [lastTime trace].
  destruct (replay_is_suppressed unset cfg fOnce (record_of t')
              (map record_of ts') resultErr' sendOK (instant t) n)
    as (R1 & R2 & R3 & R4 & R5).
  { left. cbn [record_of rTime]. rewrite Hsame. apply Time_eqb_refl. }
  change (QueryOK (record_of t' :: map record_of ts') resultErr') with q'
    in R1, R2, R3, R4, R5.
  cbn [after status held events].
  rewrite !sent_app, !exits_app, !ticks_app, R3, R4, R5.
  cbn [sent exits ticks flat_map app List.length].
  fold (sent (map (fun u => Next (record_of u)) ts)).
  fold (exits (map (fun u => Next (record_of u)) ts)).
  rewrite sent_Nexts.
  split; [exact R1|]. split; [destruct resultErr; reflexivity|].
  split; [exact R2|].
  assert (Hq : quiet (map (fun u => Next (record_of u)) ts)).
  { clear. induction ts as [|u us IH]; [apply quiet_nil|].
    change (quiet ([Next (record_of u)]
                     ++ map (fun u => Next (record_of u)) us)).
    apply quiet_app; [apply quiet_Next | exact IH]. }
  destruct Hq as (_ & Hq2 & _ & Hq4).
  split.
  - rewrite Hq2. destruct resultErr; reflexivity.
  - fold (ticks (map (fun u => Next (record_of u)) ts)).
    rewrite Hq4. destruct resultErr; cbn; lia.
Qed.

(** X8. An error on the result, met after some rows, changes nothing but
    the log: the rows read before it make up the observation, which is
    handed to the relay all the same, and the rows read, [lastTime] and
    the end of the iteration are those of the same rows without the
    error. *)
Theorem result_error_changes_only_the_log
  (unset : Z) (cfg : Config) (fOnce : bool) (rows : list FluxRecord)
  (sendOK : bool) (lt : Time) :
  fst (iteration unset cfg fOnce (QueryOK rows true) sendOK lt)
    = fst (iteration unset cfg fOnce (QueryOK rows false) sendOK lt) /\
  lastTime (snd (iteration unset cfg fOnce (QueryOK rows true) sendOK lt))
    = lastTime (snd (iteration unset cfg fOnce (QueryOK rows false)
                       sendOK lt)) /\
  wxData (snd (iteration unset cfg fOnce (QueryOK rows true) sendOK lt))
    = wxData (snd (iteration unset cfg fOnce (QueryOK rows false)
                     sendOK lt)) /\
  sent (trace (snd (iteration unset cfg fOnce (QueryOK rows true)
                      sendOK lt)))
    = sent (trace (snd (iteration unset cfg fOnce (QueryOK rows false)
                          sendOK lt))) /\
  consumed (trace (snd (iteration unset cfg fOnce (QueryOK rows true)
                          sendOK lt)))
    = consumed (trace (snd (iteration unset cfg fOnce (QueryOK rows false)
                              sendOK lt))).
Proof.
  unfold iteration, assemble.
  destruct (rows_loop rows (init unset cfg lt)) as [f s] eqn:Hr.
  destruct f.
  - unfold transmit, emit. cbn [wxData lastTime trace].
    destruct (negb (IsZero (Timestamp (wxData s))));
      [destruct sendOK; [destruct fOnce|]|];
      cbn [fst snd lastTime wxData trace];
      rewrite ?sent_app, ?consumed_app;
      cbn [sent consumed flat_map app];
      rewrite ?app_nil_r; repeat split.
  - cbn [fst snd]. repeat split.
  - cbn [fst snd]. repeat split.
Qed.

(** An accepted cycle of a process that loops: its observation, then the
    cycles that follow, from the new [lastTime]. *)
Lemma run_cons_accepted
  (unset : Z) (cfg : Config) (t : SampleTuple) (ts : list SampleTuple)
  (e sendOK : bool) (rest : list (QueryResult * bool)) (lt : Time) :
  IsZero (instant t) = false ->
  instant t <> lt ->
  sent (events (run unset cfg false
                  ((query_of (TupleOK (t :: ts) e), sendOK) :: rest) lt))
  = fold_left apply_tuple (t :: ts)
      (set_Timestamp (instant t) (fresh_wxData unset cfg))
    :: sent (events (run unset cfg false rest (instant t))).
Proof.
  intros Hz Hne.
  destruct (iteration_accepted_facts unset cfg false t ts e sendOK lt Hz Hne)
    as (H0 & H1 & _ & H3 & _).
  rewrite andb_false_r in H0.
  destruct (iteration unset cfg false (query_of (TupleOK (t :: ts) e))
              sendOK lt) as [c s] eqn:Hi.
  cbn [fst snd] in H0, H1, H3. subst c.
  rewrite (run_cons_Continue unset cfg false _ _ _ _ _ Hi).
  cbn [after events]. rewrite !sent_app, H3, H1. reflexivity.
Qed.

(** X10. The duplicate check remembers one timestamp only: when the
    store answers with a reading, then with another, then with the first
    again, a looping process hands all three to the relay, the first
    observation twice. *)
Theorem dedup_remembers_only_the_last_timestamp
  (unset : Z) (cfg : Config) (t u : SampleTuple) (ts us : list SampleTuple)
  (e1 e2 ok1 ok2 ok3 : bool) (lt : Time) :
  IsZero (instant t) = false ->
  IsZero (instant u) = false ->
  instant t <> lt ->
  instant t <> instant u ->
  let qa := query_of (TupleOK (t :: ts) e1) in
  let qb := query_of (TupleOK (u :: us) e2) in
  let wa := fold_left apply_tuple (t :: ts)
              (set_Timestamp (instant t) (fresh_wxData unset cfg)) in
  let wb := fold_left apply_tuple (u :: us)
              (set_Timestamp (instant u) (fresh_wxData unset cfg)) in
  sent (events (run unset cfg false [(qa, ok1); (qb, ok2); (qa, ok3)] lt))
    = [wa; wb; wa] /\
  stamps (events (run unset cfg false [(qa, ok1); (qb, ok2); (qa, ok3)] lt))
    = [instant t; instant u; instant t].
Proof.
  intros Hzt Hzu Hne Htu qa qb wa wb.
  assert (E : sent (events (run unset cfg false
                              [(qa, ok1); (qb, ok2); (qa, ok3)] lt))
              = [wa; wb; wa]).
  { unfold qa, qb.
    rewrite run_cons_accepted by assumption.
    rewrite run_cons_accepted by (try assumption; congruence).
    rewrite run_cons_accepted by assumption.
    reflexivity. }
  split; [exact E|]. unfold stamps. rewrite E. cbn [map].
  unfold wa, wb. rewrite !fold_apply_Timestamp. reflexivity.
Qed.

(** ** The timestamp of an observation *)

Lemma rows_loop_Timestamp (rows : list FluxRecord) :
  forall s,
  IsZero (Timestamp (wxData s)) = false ->
  Timestamp (wxData (snd (rows_loop rows s))) = Timestamp (wxData s).
Proof.
  induction rows as [|r rest IH]; intros s Hs; cbn [rows_loop].
  - reflexivity.
  - rewrite stamp_stamped by exact Hs.
    destruct (dispatch r (wxData (emit (Next r) s))) as [w|] eqn:Hd;
      [|reflexivity].
    pose proof (dispatch_Timestamp _ _ _ Hd) as Hw. cbn [emit wxData] in Hw.
    rewrite IH by (cbn [with_wxData wxData]; rewrite Hw; exact Hs).
    cbn [with_wxData wxData]. exact Hw.
Qed.

Lemma iteration_wxData
  (unset : Z) (cfg : Config) (fOnce : bool) (q : QueryResult)
  (sendOK : bool) (lt : Time) :
  wxData (snd (iteration unset cfg fOnce q sendOK lt))
  = wxData (snd (assemble unset cfg q lt)).
Proof.
  unfold iteration. destruct (assemble unset cfg q lt) as [f s].
  destruct f; cbn [snd]; try reflexivity.
  unfold transmit. destruct (negb (IsZero (Timestamp (wxData s))));
    [destruct sendOK; [destruct fOnce|]|]; reflexivity.
Qed.

(** X11. The first row of a result alone stamps the observation: whatever
    rows follow, of whatever type and with whatever instants, newer ones
    included, an observation handed to the relay carries the timestamp of
    the first row, whose instant is then not zero and which is not [==]
    to the [lastTime] the cycle began with. *)
Theorem only_the_first_row_stamps
  (unset : Z) (cfg : Config) (fOnce : bool) (r : FluxRecord)
  (rest : list FluxRecord) (resultErr sendOK : bool) (lt : Time) (w : Wx) :
  In w (sent (trace (snd (iteration unset cfg fOnce
                            (QueryOK (r :: rest) resultErr) sendOK lt)))) ->
  Timestamp w = rTime r /\ IsZero (rTime r) = false /\ rTime r <> lt.
Proof.
  intros Hin.
  destruct (Time_eqb (rTime r) lt) eqn:He.
  { rewrite (iteration_stale unset cfg fOnce r rest resultErr sendOK lt
               (or_introl He)) in Hin. destruct Hin. }
  destruct (IsZero (rTime r)) eqn:Hz.
  { rewrite (iteration_stale unset cfg fOnce r rest resultErr sendOK lt
               (or_intror Hz)) in Hin. destruct Hin. }
  split; [|split; [reflexivity | apply Time_eqb_neq; exact He]].
  destruct (iteration_cases unset cfg fOnce (QueryOK (r :: rest) resultErr)
              sendOK lt) as [(Hs & _) | (Hs & _)];
    rewrite Hs in Hin; [destruct Hin|].
  destruct Hin as [<- | []].
  rewrite iteration_wxData. unfold assemble. cbn [rows_loop].
  rewrite stamp_accept by (try reflexivity; assumption).
  destruct (dispatch r _) as [w1|] eqn:Hd.
  - pose proof (dispatch_Timestamp _ _ _ Hd) as Hw.
    cbn [wxData set_Timestamp Timestamp] in Hw.
    assert (Hl : Timestamp (wxData (snd (rows_loop rest
                   (with_wxData (fun _ => w1)
                      (mkState (rTime r)
                         (set_Timestamp (rTime r)
                            (wxData (emit (Next r) (init unset cfg lt))))
                         (trace (emit (Next r) (init unset cfg lt))
                            ++ [SetLastTime (rTime r)])))))) = rTime r).
    { rewrite rows_loop_Timestamp; cbn [with_wxData wxData]; rewrite Hw;
        [reflexivity | exact Hz]. }
    destruct (rows_loop rest _) as [f s]. cbn [snd] in Hl.
    destruct f; [destruct resultErr|..]; exact Hl.
  - reflexivity.
Qed.

(** ** The further properties at concrete cycles *)

(** A humidity that is not a float64, after a temperature at instant 7. *)
Lemma non_float_row_witness :
  status (run (-1) station false
            [(QueryOK (map record_of [mkTuple "temperature_C" 20 (utc 7)]
                         ++ [mkRecord "humidity" VOther (utc 7)]) false, true);
             (QueryOK [] false, true)] (utc 3)) = Panicked.
Proof.
  rewrite (proj2 (proj2 (proj2 (proj2
            (non_float_row_panics_the_process (-1) station false
               (mkTuple "temperature_C" 20 (utc 7)) [] "humidity" (utc 7) []
               false true [(QueryOK [] false, true)] (utc 3)
               eq_refl ltac:(discriminate) eq_refl))))).
  reflexivity.
Defined.

(** The scenario at instant 7, its transmission failing, polled three
    more times with [--once]: the process is still looping. *)
Lemma failed_send_witness :
  status (run (-1) station true
            ((query_of (TupleOK (scenario (utc 7)) false), false)
               :: replay 3 (query_of (TupleOK (scenario (utc 7)) false)) true)
            (utc 3))
  = Continue.
Proof.
  apply (failed_send_is_not_retried (-1) station true
           (mkTuple "temperature_C" 20 (utc 7))
           (mkTuple "temperature_C" 20 (utc 7))
           [mkTuple "humidity" 55.3 (utc 7); mkTuple "wind_avg_m_s" 5 (utc 7)]
           [mkTuple "humidity" 55.3 (utc 7); mkTuple "wind_avg_m_s" 5 (utc 7)]
           false false true (utc 3) 3);
    [reflexivity | discriminate | reflexivity].
Defined.

(** A cycle of battery and rain rows only. *)
Lemma blank_report_witness :
  sent (trace (snd (iteration (-1) station false
                      (query_of (TupleOK [mkTuple "battery_ok" 1 (utc 7);
                                          mkTuple "rain_mm" 2.5 (utc 7)]
                                         false))
                      true (utc 3))))
  = [mkWx (lat station) (lon station) (comment station) (utc 7)
          (-1) (-1) (-1) (-1) (-1) (-1)].
Proof.
  apply (unknown_fields_send_a_blank_report (-1) station false true
           (mkTuple "battery_ok" 1 (utc 7)) [mkTuple "rain_mm" 2.5 (utc 7)]
           false (utc 3));
    [reflexivity | discriminate | repeat constructor].
Defined.

(** Readings at instants 7, 8 and 7 again. *)
Lemma dedup_memory_witness :
  stamps (events (run (-1) station false
                    [(query_of (TupleOK (scenario (utc 7)) false), true);
                     (query_of (TupleOK (scenario (utc 8)) false), true);
                     (query_of (TupleOK (scenario (utc 7)) false), true)]
                    (utc 3)))
  = [utc 7; utc 8; utc 7].
Proof.
  apply (dedup_remembers_only_the_last_timestamp (-1) station
           (mkTuple "temperature_C" 20 (utc 7))
           (mkTuple "temperature_C" 20 (utc 8))
           [mkTuple "humidity" 55.3 (utc 7); mkTuple "wind_avg_m_s" 5 (utc 7)]
           [mkTuple "humidity" 55.3 (utc 8); mkTuple "wind_avg_m_s" 5 (utc 8)]
           false false true true true (utc 3));
    [reflexivity | reflexivity | discriminate | discriminate].
Defined.

(** A temperature at instant 7, then a wind speed at the newer instant
    9: the observation is stamped 7. *)
Lemma first_row_stamps_witness :
  In (mkWx (lat station) (lon station) (comment station) (utc 7)
           (-1) (-1) 68 (-1) (-1) 11)
     (sent (trace (snd (iteration (-1) station false
                          (QueryOK
                             [mkRecord "temperature_C" (VFloat 20) (utc 7);
                              mkRecord "wind_avg_m_s" (VFloat 5) (utc 9)]
                             false) true (utc 3))))) /\
  rTime (mkRecord "temperature_C" (VFloat 20) (utc 7)) <> utc 3.
Proof.
  assert (H : In (mkWx (lat station) (lon station) (comment station) (utc 7)
                       (-1) (-1) 68 (-1) (-1) 11)
                 (sent (trace (snd (iteration (-1) station false
                          (QueryOK
                             [mkRecord "temperature_C" (VFloat 20) (utc 7);
                              mkRecord "wind_avg_m_s" (VFloat 5) (utc 9)]
                             false) true (utc 3))))))
    by (vm_compute; left; reflexivity).
  split; [exact H|].
  apply (only_the_first_row_stamps (-1) station false
           (mkRecord "temperature_C" (VFloat 20) (utc 7))
           [mkRecord "wind_avg_m_s" (VFloat 5) (utc 9)] false true (utc 3)
           _ H).
Defined.

